(** * MathComps embedding service: a shallow embedding of
      [embedding_model.py] and [app.py]

    The service wraps a sentence-transformers model.  The wrapper
    ([EmbeddingModel]) prefixes texts with an E5 role, forwards them to
    the library's [encode], and converts the result to lists; the FastAPI
    handlers ([embed_texts], [health_check]) validate the request and map
    exceptions to HTTP errors.

    Python code that raises, logs and calls the model is written in a
    small state-and-exception monad over a [World] that records every
    logger call and every invocation of the model.  The sentence-
    transformers model itself is not part of the repository: it is the
    record [SentenceTransformer], whose [encode] field is whatever the
    loaded model computes. *)

From Stdlib Require Import String List Bool ZArith Lia DecimalString.
From Stdlib Require Import Floats.PrimFloat.
Import ListNotations.
Open Scope string_scope.

(** ** Python values and exceptions *)

Module Py.

(** The exception classes the two modules raise or catch.  Every other
    class deriving from [Exception] (what the library raises) is
    [LibraryError] with its qualified name. *)
Inductive ExcClass : Type :=
| ValueError
| RuntimeError
| AttributeError
| LibraryError (qualname : string).

(** An exception instance: its class, what [str(e)] returns, and the
    [__context__] Python sets when it is raised while another exception
    is being handled. *)
#[warnings="-register-all"]
Inductive Exception : Type :=
  mk_exception {
      exc_class : ExcClass;
      exc_str : string;
      exc_context : option Exception
    }.

(** [str(e)] *)
Definition str (e : Exception) : string := exc_str e.

(** [str(n)] for an [int]. *)
Definition str_int (n : Z) : string := NilZero.string_of_int (Z.to_int n).

(** [len(xs)] *)
Definition len {A : Type} (xs : list A) : Z := Z.of_nat (length xs).

(** [str(x)] for an [Optional[int]]. *)
Definition str_opt_int (x : option Z) : string :=
  match x with
  | Some n => str_int n
  | None => "None"
  end.

(** Truth value of a list: [not xs] is true exactly for the empty list. *)
Definition not_list {A : Type} (xs : list A) : bool :=
  match xs with
  | [] => true
  | _ :: _ => false
  end.

(** Truth value of an [Optional[str]]: [not s] is true for [None] and
    for the empty string. *)
Definition not_opt_str (s : option string) : bool :=
  match s with
  | None => true
  | Some EmptyString => true
  | Some (String _ _) => false
  end.

(** [x in xs] for strings, by [==] from left to right. *)
Fixpoint str_in (x : string) (xs : list string) : bool :=
  match xs with
  | [] => false
  | y :: ys => if String.eqb x y then true else str_in x ys
  end.

End Py.

Import Py.

(** ** The world: logger calls and model invocations *)

Inductive Level : Type := DEBUG | INFO | WARNING | ERROR.

(** The two module-level loggers, [logging.getLogger(__name__)]. *)
Inductive Logger : Type := embedding_model_logger | app_logger.

Record LogRecord : Type := {
  log_name : Logger;
  log_level : Level;
  log_message : string
}.

(** One call [model.encode(sentences, batch_size=..,
    normalize_embeddings=.., show_progress_bar=False,
    convert_to_numpy=True)]; the last two arguments are constants in the
    source. *)
Record EncodeCall : Type := {
  call_sentences : list string;
  call_batch_size : Z;
  call_normalize_embeddings : bool
}.

Record World : Type := {
  encode_calls : list EncodeCall;
  log_records : list LogRecord
}.

Definition empty_world : World :=
  {| encode_calls := []; log_records := [] |}.

(** ** The effect monad *)

Inductive Outcome (E A : Type) : Type :=
| Returned (a : A)
| Raised (e : E).
Arguments Returned {E A} a.
Arguments Raised {E A} e.

(** A computation that may raise an [E], running in a [World]. *)
Definition Eff (E A : Type) : Type := World -> Outcome E A * World.

Definition ret {E A : Type} (a : A) : Eff E A :=
  fun w => (Returned a, w).

Definition bind {E A B : Type} (c : Eff E A) (k : A -> Eff E B) : Eff E B :=
  fun w =>
    match c w with
    | (Returned a, w') => k a w'
    | (Raised e, w') => (Raised e, w')
    end.

Definition raise {E A : Type} (e : E) : Eff E A :=
  fun w => (Raised e, w).

(** [try: body / except Exception as e: handler e].  The handler may raise
    an exception of another type than the body's. *)
Definition try_except {E E' A : Type}
    (body : Eff E A) (handler : E -> Eff E' A) : Eff E' A :=
  fun w =>
    match body w with
    | (Returned a, w') => (Returned a, w')
    | (Raised e, w') => handler e w'
    end.

(** Lift a pure library result into the monad. *)
Definition lift_outcome {E A : Type} (o : Outcome E A) : Eff E A :=
  fun w => (o, w).

Declare Scope eff_scope.
Delimit Scope eff_scope with eff.
Notation "x <- c ;; k" := (bind c (fun x => k))
  (at level 61, c at next level, right associativity) : eff_scope.
Notation "c ;; k" := (bind c (fun _ => k))
  (at level 61, right associativity) : eff_scope.
Open Scope eff_scope.

(** [logger.<level>(message)] *)
Definition log {E : Type} (name : Logger) (lvl : Level) (msg : string)
  : Eff E unit :=
  fun w =>
    (Returned tt,
     {| encode_calls := encode_calls w;
        log_records := log_records w ++
          [{| log_name := name; log_level := lvl; log_message := msg |}] |}).

(** ** The sentence-transformers model (external library) *)

(** A loaded model.  [encode] is the result of [model.encode] on a list of
    sentences with a batch size and the normalisation flag: either the
    rows of the returned array (after [tolist()]) or the exception the
    library raised. *)
Record SentenceTransformer : Type := {
  encode : list string -> Z -> bool ->
           Outcome Exception (list (list float));
  get_max_seq_length : option Z;
  get_sentence_embedding_dimension : option Z
}.

(** Invoking the model: the call is recorded in the world. *)
Definition model_encode (m : SentenceTransformer)
    (sentences : list string) (batch_size : Z) (normalize : bool)
  : Eff Exception (list (list float)) :=
  fun w =>
    (encode m sentences batch_size normalize,
     {| encode_calls := encode_calls w ++
          [{| call_sentences := sentences;
              call_batch_size := batch_size;
              call_normalize_embeddings := normalize |}];
        log_records := log_records w |}).

(** ** [embedding_model.py]: the [EmbeddingModel] wrapper *)

Module Model.

(** The instance attributes [self.model_name] and [self.model]. *)
Record EmbeddingModel : Type := {
  model_name : string;
  model : option SentenceTransformer
}.

(** The default of [__init__]'s [model_name] parameter. *)
Definition default_model_name : string := "intfloat/multilingual-e5-base".

Definition logger : Logger := embedding_model_logger.

(** [_load_model]: [hub] stands for the constructor
    [SentenceTransformer(name)], which downloads or opens the named
    model.  Returns [self] with [self.model] assigned. *)
Definition _load_model
    (hub : string -> Outcome Exception SentenceTransformer)
    (self : EmbeddingModel) : Eff Exception EmbeddingModel :=
  try_except
    (log logger INFO ("Loading embedding model: " ++ model_name self) ;;
     m <- lift_outcome (hub (model_name self)) ;;
     log logger INFO "Model loaded successfully" ;;
     log logger INFO ("Model max sequence length: "
                      ++ str_opt_int (get_max_seq_length m)) ;;
     log logger INFO ("Model dimensions: "
                      ++ str_opt_int (get_sentence_embedding_dimension m)) ;;
     ret {| model_name := model_name self; model := Some m |})
    (fun e =>
       log logger ERROR ("Failed to load model " ++ model_name self
                         ++ ": " ++ str e) ;;
       raise e).

(** [__init__] *)
Definition EmbeddingModel_init
    (hub : string -> Outcome Exception SentenceTransformer)
    (name : string) : Eff Exception EmbeddingModel :=
  _load_model hub {| model_name := name; model := None |}.

(** [is_ready]: [self.model is not None] *)
Definition is_ready (self : EmbeddingModel) : bool :=
  match model self with
  | Some _ => true
  | None => false
  end.

(** [_apply_role_prefix].  [if not role] holds for [None] and for the
    empty string; [role not in ["passage", "query"]] logs a warning and
    gives the texts back; otherwise [prefix = f"{role}: "] is put in front
    of every text. *)
Definition _apply_role_prefix (texts : list string) (role : option string)
  : Eff Exception (list string) :=
  match role with
  | None => ret texts
  | Some r =>
      if not_opt_str (Some r) then ret texts
      else if negb (str_in r ["passage"; "query"]) then
        log logger WARNING ("Unknown role '" ++ r
                            ++ "', ignoring role prefix") ;;
        ret texts
      else
        let prefix := r ++ ": " in
        ret (map (fun text => prefix ++ text) texts)
  end.

(** [self.model.encode(...)]: attribute access on a [None] model raises
    [AttributeError]; [generate_embeddings] only gets here after
    [is_ready]. *)
Definition self_model_encode (self : EmbeddingModel)
    (sentences : list string) (batch_size : Z) (normalize : bool)
  : Eff Exception (list (list float)) :=
  match model self with
  | Some m => model_encode m sentences batch_size normalize
  | None =>
      raise {| exc_class := AttributeError;
               exc_str := "'NoneType' object has no attribute 'encode'";
               exc_context := None |}
  end.

(** [generate_embeddings] *)
Definition generate_embeddings (self : EmbeddingModel)
    (texts : list string) (role : option string)
    (batch_size : Z) (normalize : bool)
  : Eff Exception (list (list float)) :=
  if negb (is_ready self) then
    raise {| exc_class := ValueError;
             exc_str := "Model not loaded. Call _load_model() first.";
             exc_context := None |}
  else if not_list texts then ret []
  else
    try_except
      (processed_texts <- _apply_role_prefix texts role ;;
       log logger DEBUG ("Generating embeddings for "
                         ++ str_int (len processed_texts) ++ " texts") ;;
       embeddings <- self_model_encode self processed_texts
                       batch_size normalize ;;
       ret embeddings)
      (fun e =>
         log logger ERROR ("Error generating embeddings: " ++ str e) ;;
         raise {| exc_class := RuntimeError;
                  exc_str := "Embedding generation failed: " ++ str e;
                  exc_context := Some e |}).

(** [generate_single_embedding]: [result[0] if result else []];
    [batch_size] keeps its default 32. *)
Definition generate_single_embedding (self : EmbeddingModel)
    (text : string) (role : option string) (normalize : bool)
  : Eff Exception (list float) :=
  result <- generate_embeddings self [text] role 32 normalize ;;
  ret (match result with
       | [] => []
       | r0 :: _ => r0
       end).

End Model.

(** ** [app.py]: request models and handlers *)

Module App.

Import Model.

Definition logger : Logger := app_logger.

(** [EmbedRequest]: the fields of the pydantic model. *)
Record EmbedRequest : Type := {
  texts : list string;
  role : option string
}.

(** [EmbedResponse] *)
Record EmbedResponse : Type := {
  vectors : list (list float)
}.

(** The constraint declared on [texts]: [Field(..., min_items=1)]. *)
Definition texts_min_items : nat := 1.

(** What pydantic reports when a field constraint fails. *)
Inductive ValidationError : Type :=
| too_short (field : string) (min_items actual : nat).

(** Construction of an [EmbedRequest] with validation, as FastAPI does for
    the body of [POST /embed]: [texts] must have at least [min_items]
    elements, [role] is optional and unconstrained. *)
Definition EmbedRequest_validate (texts0 : list string)
    (role0 : option string) : Outcome ValidationError EmbedRequest :=
  if Nat.leb texts_min_items (length texts0)
  then Returned {| texts := texts0; role := role0 |}
  else Raised (too_short "texts" texts_min_items (length texts0)).

(** [fastapi.HTTPException(status_code, detail)] *)
Record HTTPException : Type := {
  status_code : Z;
  detail : string
}.

(** The status FastAPI answers with: 200 for a returned body, the
    exception's [status_code] otherwise. *)
Definition response_status {A : Type} (o : Outcome HTTPException A) : Z :=
  match o with
  | Returned _ => 200
  | Raised e => status_code e
  end.

(** The call [embedding_model.generate_embeddings(texts=.., role=..)] on
    the module-level global, which is [None] until [lifespan] has run:
    attribute access on [None] raises [AttributeError].  [batch_size] and
    [normalize] keep their defaults. *)
Definition call_generate_embeddings
    (embedding_model : option EmbeddingModel)
    (texts0 : list string) (role0 : option string)
  : Eff Exception (list (list float)) :=
  match embedding_model with
  | None =>
      raise {| exc_class := AttributeError;
               exc_str := "'NoneType' object has no attribute "
                          ++ "'generate_embeddings'";
               exc_context := None |}
  | Some em => generate_embeddings em texts0 role0 32 true
  end.

(** [lifespan], up to its [yield]: returns the new value of the global
    [embedding_model]. *)
Definition lifespan_startup
    (hub : string -> Outcome Exception SentenceTransformer)
  : Eff Exception (option EmbeddingModel) :=
  log logger INFO "Starting embedding service..." ;;
  try_except
    (em <- EmbeddingModel_init hub default_model_name ;;
     log logger INFO "Embedding model loaded successfully" ;;
     ret (Some em))
    (fun e =>
       log logger ERROR ("Failed to load embedding model: " ++ str e) ;;
       raise e).

(** [embed_texts], the handler of [POST /embed]. *)
Definition embed_texts (embedding_model : option EmbeddingModel)
    (request : EmbedRequest) : Eff HTTPException EmbedResponse :=
  if not_list (texts request) then
    raise {| status_code := 400; detail := "texts list cannot be empty" |}
  else
    try_except
      (log logger INFO ("Processing " ++ str_int (len (texts request))
                        ++ " texts for embedding") ;;
       vectors0 <- call_generate_embeddings embedding_model
                     (texts request) (role request) ;;
       log logger INFO ("Successfully generated "
                        ++ str_int (len vectors0) ++ " embeddings") ;;
       ret {| vectors := vectors0 |})
      (fun e =>
         log logger ERROR ("Error generating embeddings: " ++ str e) ;;
         raise {| status_code := 500;
                  detail := "Embedding generation failed: " ++ str e |}).

(** The dictionary [health_check] returns. *)
Record HealthBody : Type := {
  status : string;
  model_loaded : bool;
  health_model_name : string
}.

(** [health_check], the handler of [GET /health]. *)
Definition health_check (embedding_model : option EmbeddingModel)
  : Eff HTTPException HealthBody :=
  let model_ready :=
    match embedding_model with
    | None => false
    | Some em => is_ready em
    end in
  ret {| status := if model_ready then "healthy" else "unhealthy";
         model_loaded := model_ready;
         health_model_name := "intfloat/multilingual-e5-base" |}.

End App.

(** ** [embedding_model.py]: [get_model_info] *)

Module Info.

Import Model.

(** The values [get_model_info] puts in its dictionary. *)
Inductive PyValue : Type :=
| PyNone
| PyBool (b : bool)
| PyInt (n : Z)
| PyStr (s : string).

(** An [Optional[int]] as a Python value. *)
Definition of_opt_int (x : option Z) : PyValue :=
  match x with
  | Some n => PyInt n
  | None => PyNone
  end.

(** A [dict] with string keys, in insertion order. *)
Definition Dict : Type := list (string * PyValue).

(** [d.get(k)]: the value under [k], [None] when the key is missing. *)
Fixpoint dict_get (k : string) (d : Dict) : option PyValue :=
  match d with
  | [] => None
  | (k', v) :: rest => if String.eqb k k' then Some v else dict_get k rest
  end.

(** The keys of a dictionary, in order. *)
Definition dict_keys (d : Dict) : list string := map fst d.

(** [get_model_info].  The two getters are called on [self.model], which
    raises [AttributeError] on [None]. *)
Definition get_model_info (self : EmbeddingModel) : Eff Exception Dict :=
  if negb (is_ready self) then ret [("loaded", PyBool false)]
  else
    match model self with
    | Some m =>
        ret [("loaded", PyBool true);
             ("model_name", PyStr (model_name self));
             ("max_sequence_length", of_opt_int (get_max_seq_length m));
             ("embedding_dimension",
              of_opt_int (get_sentence_embedding_dimension m))]
    | None =>
        raise {| exc_class := AttributeError;
                 exc_str := "'NoneType' object has no attribute "
                            ++ "'get_max_seq_length'";
                 exc_context := None |}
    end.

End Info.

(** ** The library's contract for [encode] *)

(** [encode] answers row by row: when it returns, row [i] is the embedding
    [embed1] of sentence [i] alone.  This is what sentence-transformers
    documents for a list input (one row per input sentence, in input
    order); the wrapper does not establish it, it relies on it. *)
Definition encode_rowwise (m : SentenceTransformer)
    (embed1 : bool -> string -> list float) : Prop :=
  forall sentences batch_size normalize rows,
    encode m sentences batch_size normalize = Returned rows ->
    rows = map (embed1 normalize) sentences.

(** ** Unit length *)

(** The sum of the squares of a vector's components, added from left to
    right in double precision (the floats [tolist()] yields). *)
Definition sum_squares (v : list float) : float :=
  fold_left (fun acc x => (acc + x * x)%float) v 0%float.

(** The Euclidean (L2) norm. *)
Definition l2_norm (v : list float) : float :=
  PrimFloat.sqrt (sum_squares v).

(** The tolerance the specification names, 1e-5. *)
Definition norm_tolerance : float := (1 / 100000)%float.

(** [v] has unit length within the tolerance: the distance of its norm
    from 1 is at most [norm_tolerance].  A norm that is not a number
    fails the test. *)
Definition unit_norm (v : list float) : bool :=
  PrimFloat.leb (PrimFloat.abs (l2_norm v - 1)%float) norm_tolerance.

(** The library's contract for [normalize_embeddings=True]: every row
    [encode] returns has unit length.  The scaling is done inside
    sentence-transformers; the wrapper does not establish it, it passes
    the flag on and relies on it. *)
Definition encode_normalizes (m : SentenceTransformer) : Prop :=
  forall sentences batch_size rows v,
    encode m sentences batch_size true = Returned rows ->
    In v rows ->
    unit_norm v = true.

(** ** [generate_single_embedding], as specified *)

(** The wrapper as the specification words it: run the batch operation on
    the one-element list and hand back its sole result, or the empty
    vector when the batch operation yields nothing. *)
Definition single_via_batch (self : Model.EmbeddingModel) (text : string)
    (role0 : option string) (normalize : bool) (w : World)
  : Outcome Exception (list float) * World :=
  match Model.generate_embeddings self [text] role0 32 normalize w with
  | (Raised e, w') => (Raised e, w')
  | (Returned [], w') => (Returned [], w')
  | (Returned (sole :: _), w') => (Returned sole, w')
  end.

(** ** Concrete models used to exercise the definitions *)

Module Demo.

Import Model App.

Fixpoint float_of_nat (n : nat) : float :=
  match n with
  | O => 0%float
  | S k => (float_of_nat k + 1)%float
  end.

(** A two-dimensional toy embedding: the length of the sentence on one
    axis when not normalised, the unit vector of that axis otherwise. *)
Definition toy_embed1 (normalize : bool) (s : string) : list float :=
  if normalize then [1%float; 0%float]
  else [float_of_nat (String.length s); 0%float].

Definition toy_model : SentenceTransformer :=
  {| encode := fun sentences _ normalize =>
                 Returned (map (toy_embed1 normalize) sentences);
     get_max_seq_length := Some 512%Z;
     get_sentence_embedding_dimension := Some 2%Z |}.

Definition out_of_memory : Exception :=
  {| exc_class := LibraryError "torch.OutOfMemoryError";
     exc_str := "CUDA out of memory";
     exc_context := None |}.

(** A model whose every invocation raises. *)
Definition failing_model : SentenceTransformer :=
  {| encode := fun _ _ _ => Raised out_of_memory;
     get_max_seq_length := Some 512%Z;
     get_sentence_embedding_dimension := Some 2%Z |}.

Definition toy_hub (name : string)
  : Outcome Exception SentenceTransformer :=
  Returned toy_model.

Definition loaded : EmbeddingModel :=
  {| model_name := default_model_name; model := Some toy_model |}.

Definition loaded_failing : EmbeddingModel :=
  {| model_name := default_model_name; model := Some failing_model |}.

(** An instance whose [model] attribute is still [None]. *)
Definition unloaded : EmbeddingModel :=
  {| model_name := default_model_name; model := None |}.

Definition hello_request : EmbedRequest :=
  {| texts := ["Hello world"; "This is a test problem"];
     role := Some "passage" |}.

End Demo.

(** Loaders and requests used to exercise startup and the handlers. *)
Module DemoStartup.

Import Model App.

Definition not_found : Exception :=
  {| exc_class := LibraryError "OSError";
     exc_str := "model not found";
     exc_context := None |}.

(** A loader that cannot open any model. *)
Definition failing_hub (name : string)
  : Outcome Exception SentenceTransformer :=
  Raised not_found.

(** A loader whose model raises on every invocation. *)
Definition failing_model_hub (name : string)
  : Outcome Exception SentenceTransformer :=
  Returned Demo.failing_model.

Definition query_request : EmbedRequest :=
  {| texts := ["triangle inequality"]; role := Some "query" |}.

End DemoStartup.

(** * Properties *)

Import Model App.

(** Unfolds the monad's combinators so that a computation applied to a
    world reduces. *)
Ltac run_eff :=
  unfold bind, ret, raise, try_except, lift_outcome, log, model_encode in *;
  simpl in *.

(** Opens [generate_embeddings] once [model em] is known. *)
Ltac open_generate Hm :=
  unfold generate_embeddings, is_ready, self_model_encode; rewrite Hm.

(** ** Role prefixing *)

(** Sanity checks on concrete inputs. *)
Example prefix_hello :
  fst (_apply_role_prefix ["Hello world"] (Some "passage") empty_world)
  = Returned ["passage: Hello world"].
Proof. reflexivity. Qed.

Example prefix_bogus_warns :
  _apply_role_prefix ["a"; "b"] (Some "bogus") empty_world
  = (Returned ["a"; "b"],
     {| encode_calls := [];
        log_records :=
          [{| log_name := embedding_model_logger; log_level := WARNING;
              log_message := "Unknown role 'bogus', ignoring role prefix" |}]
     |}).
Proof. reflexivity. Qed.

(** C1. Role prefixing is exact.  With the role unset the texts come back
    unchanged; with role ["passage"] (resp. ["query"]) the result is the
    list of the original texts, in order, each with the literal
    ["passage: "] (resp. ["query: "]) prepended.  Nothing is logged and
    the model is not touched. *)
Theorem apply_role_prefix_exact :
  forall (texts0 : list string) (w : World),
    _apply_role_prefix texts0 None w = (Returned texts0, w) /\
    _apply_role_prefix texts0 (Some "passage") w
      = (Returned (map (fun text => "passage: " ++ text) texts0), w) /\
    _apply_role_prefix texts0 (Some "query") w
      = (Returned (map (fun text => "query: " ++ text) texts0), w).
Proof.
  intros texts0 w. repeat split; reflexivity.
Qed.

(** A role that is neither ["passage"] nor ["query"] leaves the texts as
    they are; only a warning may be logged. *)
Lemma apply_role_prefix_unrecognized :
  forall (texts0 : list string) (r : string) (w : World),
    r <> "passage" -> r <> "query" ->
    fst (_apply_role_prefix texts0 (Some r) w) = Returned texts0 /\
    encode_calls (snd (_apply_role_prefix texts0 (Some r) w))
      = encode_calls w.
Proof.
  intros texts0 r w Hp Hq. unfold _apply_role_prefix.
  destruct r as [|c r']; [split; reflexivity|].
  cbn [not_opt_str str_in].
  destruct (String.eqb_spec (String c r') "passage") as [E|_]; [contradiction|].
  destruct (String.eqb_spec (String c r') "query") as [E|_]; [contradiction|].
  split; reflexivity.
Qed.

(** The prefixing step never raises and never invokes the model, and what
    it returns does not depend on the world it runs in. *)
Lemma apply_role_prefix_returns :
  forall (texts0 : list string) (role0 : option string) (w : World),
  exists processed w',
    _apply_role_prefix texts0 role0 w = (Returned processed, w') /\
    encode_calls w' = encode_calls w /\
    forall v, fst (_apply_role_prefix texts0 role0 v) = Returned processed.
Proof.
  intros texts0 role0 w. unfold _apply_role_prefix.
  destruct role0 as [r|].
  - destruct (not_opt_str (Some r)).
    + exists texts0, w. repeat split.
    + destruct (negb (str_in r ["passage"; "query"])); run_eff;
        eexists; eexists; repeat split.
  - exists texts0, w. repeat split.
Qed.

(** Whatever the role, the step prepends one fixed prefix to every text:
    the role's prefix, or the empty string. *)
Lemma apply_role_prefix_shape :
  forall (texts0 : list string) (role0 : option string) (w : World),
  exists prefix,
    (prefix = "" \/ prefix = "passage: " \/ prefix = "query: ") /\
    fst (_apply_role_prefix texts0 role0 w)
    = Returned (map (fun text => prefix ++ text) texts0).
Proof.
  intros texts0 role0 w.
  assert (Hid : map (fun text => "" ++ text) texts0 = texts0)
    by apply map_id.
  destruct role0 as [r|].
  - destruct (string_dec r "passage") as [->|Hp].
    { exists "passage: ". split; [right; left|]; reflexivity. }
    destruct (string_dec r "query") as [->|Hq].
    { exists "query: ". split; [right; right|]; reflexivity. }
    exists "". split; [left; reflexivity|]. rewrite Hid.
    apply apply_role_prefix_unrecognized; assumption.
  - exists "". split; [left; reflexivity|]. rewrite Hid. reflexivity.
Qed.

(** ** [generate_embeddings] *)

Example generate_passage :
  fst (generate_embeddings Demo.loaded ["Hello world"; "x"]
         (Some "passage") 32 false empty_world)
  = Returned [[Demo.float_of_nat 20; 0%float];
              [Demo.float_of_nat 10; 0%float]].
Proof. vm_compute. reflexivity. Qed.

(** What [generate_embeddings] does on a loaded model and a non-empty
    batch: it invokes the model exactly once, on the prefixed texts, and
    returns its rows or wraps its exception. *)
Lemma generate_embeddings_loaded :
  forall (em : EmbeddingModel) (m : SentenceTransformer)
         (t : string) (ts : list string) (role0 : option string)
         (batch_size : Z) (normalize : bool) (w : World),
    model em = Some m ->
    exists processed w',
      (forall v, fst (_apply_role_prefix (t :: ts) role0 v)
                 = Returned processed) /\
      encode_calls w' = (encode_calls w ++
        [{| call_sentences := processed;
            call_batch_size := batch_size;
            call_normalize_embeddings := normalize |}])%list /\
      generate_embeddings em (t :: ts) role0 batch_size normalize w
      = (match encode m processed batch_size normalize with
         | Returned rows => Returned rows
         | Raised e =>
             Raised {| exc_class := RuntimeError;
                       exc_str := "Embedding generation failed: " ++ str e;
                       exc_context := Some e |}
         end, w').
Proof.
  intros em m t ts role0 batch_size normalize w Hm.
  destruct (apply_role_prefix_returns (t :: ts) role0 w)
    as (processed & w1 & Hrun & Hcalls & Hany).
  open_generate Hm.
  cbn [negb not_list]. exists processed.
  unfold try_except. unfold bind at 1. rewrite Hrun. run_eff.
  destruct (encode m processed batch_size normalize) as [rows|e];
    eexists; (split; [exact Hany|]); (split; [|reflexivity]);
    simpl; rewrite Hcalls; reflexivity.
Qed.

(** The outcome of [generate_embeddings] (what it returns or raises) does
    not depend on the world: logging and the invocation record are
    write-only. *)
Lemma generate_embeddings_outcome_indep :
  forall (em : EmbeddingModel) (texts0 : list string)
         (role0 : option string) (batch_size : Z) (normalize : bool)
         (w v : World),
    fst (generate_embeddings em texts0 role0 batch_size normalize w)
    = fst (generate_embeddings em texts0 role0 batch_size normalize v).
Proof.
  intros em texts0 role0 batch_size normalize w v.
  destruct (model em) as [m|] eqn:Hm.
  - destruct texts0 as [|t ts].
    + open_generate Hm. reflexivity.
    + destruct (generate_embeddings_loaded em m t ts role0 batch_size
                  normalize w Hm) as (p1 & w1 & Hp1 & _ & E1).
      destruct (generate_embeddings_loaded em m t ts role0 batch_size
                  normalize v Hm) as (p2 & w2 & Hp2 & _ & E2).
      assert (p1 = p2) as ->.
      { specialize (Hp1 w). specialize (Hp2 w). congruence. }
      rewrite E1, E2. reflexivity.
  - open_generate Hm. reflexivity.
Qed.

(** C5. An unrecognised role is ignored.  For every instance, list of
    texts, batch size and normalisation flag, and every role string other
    than ["passage"] and ["query"], [generate_embeddings] returns or
    raises exactly what it does with the role unset, and invokes the model
    the same way; only the warning in the log tells the calls apart. *)
Theorem generate_embeddings_unrecognized_role :
  forall (em : EmbeddingModel) (texts0 : list string) (r : string)
         (batch_size : Z) (normalize : bool) (w : World),
    r <> "passage" -> r <> "query" ->
    fst (generate_embeddings em texts0 (Some r) batch_size normalize w)
    = fst (generate_embeddings em texts0 None batch_size normalize w) /\
    encode_calls
      (snd (generate_embeddings em texts0 (Some r) batch_size normalize w))
    = encode_calls
        (snd (generate_embeddings em texts0 None batch_size normalize w)).
Proof.
  intros em texts0 r batch_size normalize w Hp Hq.
  destruct (model em) as [m|] eqn:Hm.
  - destruct texts0 as [|t ts].
    + open_generate Hm. split; reflexivity.
    + destruct (generate_embeddings_loaded em m t ts (Some r) batch_size
                  normalize w Hm) as (p1 & w1 & Hp1 & C1 & E1).
      destruct (generate_embeddings_loaded em m t ts None batch_size
                  normalize w Hm) as (p2 & w2 & Hp2 & C2 & E2).
      assert (p1 = t :: ts) as ->.
      { specialize (Hp1 w).
        destruct (apply_role_prefix_unrecognized (t :: ts) r w Hp Hq)
          as [Hu _].
        congruence. }
      assert (p2 = t :: ts) as ->.
      { specialize (Hp2 w). simpl in Hp2. congruence. }
      rewrite E1, E2. simpl. split; [reflexivity | congruence].
  - open_generate Hm. split; reflexivity.
Qed.

Lemma generate_embeddings_unrecognized_role_witness :
  fst (generate_embeddings Demo.loaded ["Hello world"] (Some "bogus")
         32 true empty_world)
  = fst (generate_embeddings Demo.loaded ["Hello world"] None
           32 true empty_world) /\
  encode_calls
    (snd (generate_embeddings Demo.loaded ["Hello world"] (Some "bogus")
            32 true empty_world))
  = encode_calls
      (snd (generate_embeddings Demo.loaded ["Hello world"] None
              32 true empty_world)).
Proof.
  apply (generate_embeddings_unrecognized_role Demo.loaded ["Hello world"]
           "bogus" 32 true empty_world); discriminate.
Defined.

(** C4, as stated, fails on an instance whose model is not loaded: the
    readiness check comes before the emptiness check, so the call raises
    [ValueError] instead of returning the empty list. *)
Lemma unloaded_empty_batch_raises :
  generate_embeddings Demo.unloaded [] None 32 true empty_world
  = (Raised {| exc_class := ValueError;
               exc_str := "Model not loaded. Call _load_model() first.";
               exc_context := None |}, empty_world) /\
  fst (generate_embeddings Demo.unloaded [] None 32 true empty_world)
  <> Returned [].
Proof.
  split; [reflexivity | discriminate].
Qed.

(** C4 (amended). On an instance whose model is loaded,
    [generate_embeddings] called with an empty list of texts returns the
    empty list, raises nothing, and leaves the world as it was: the model
    is not invoked (and nothing is logged), whatever the role, batch size
    and normalisation flag. *)
Theorem generate_embeddings_empty :
  forall (em : EmbeddingModel) (role0 : option string)
         (batch_size : Z) (normalize : bool) (w : World),
    is_ready em = true ->
    generate_embeddings em [] role0 batch_size normalize w
    = (Returned [], w).
Proof.
  intros em role0 batch_size normalize w Hready.
  unfold generate_embeddings. rewrite Hready. reflexivity.
Qed.

Lemma generate_embeddings_empty_witness :
  generate_embeddings Demo.loaded [] (Some "query") 32 true empty_world
  = (Returned [], empty_world).
Proof.
  apply (generate_embeddings_empty Demo.loaded (Some "query") 32 true
           empty_world).
  reflexivity.
Defined.

(** C6. Failure of [generate_embeddings] is all-or-nothing.
    - On an instance whose model is not loaded the call raises (a
      [ValueError]) without touching the world, whatever the texts.
    - When the model is loaded, the batch is non-empty and the model's
      [encode] raises [e] on the prefixed texts, the call raises a
      [RuntimeError] whose message is ["Embedding generation failed: "]
      followed by [str(e)] and whose [__context__] is [e] itself.
    - Whatever happens, the call either raises, handing back no vector at
      all, or returns the complete result: the empty list for an empty
      batch, otherwise every row [encode] returned for the whole batch. *)
Theorem generate_embeddings_all_or_nothing :
  forall (em : EmbeddingModel) (texts0 : list string)
         (role0 : option string) (batch_size : Z) (normalize : bool)
         (w : World),
    (is_ready em = false ->
     generate_embeddings em texts0 role0 batch_size normalize w
     = (Raised {| exc_class := ValueError;
                  exc_str := "Model not loaded. Call _load_model() first.";
                  exc_context := None |}, w)) /\
    (forall (m : SentenceTransformer) (processed : list string)
            (e : Exception),
        model em = Some m -> texts0 <> [] ->
        fst (_apply_role_prefix texts0 role0 w) = Returned processed ->
        encode m processed batch_size normalize = Raised e ->
        fst (generate_embeddings em texts0 role0 batch_size normalize w)
        = Raised {| exc_class := RuntimeError;
                    exc_str := "Embedding generation failed: " ++ str e;
                    exc_context := Some e |}) /\
    ((exists e,
         fst (generate_embeddings em texts0 role0 batch_size normalize w)
         = Raised e) \/
     (exists rows,
         fst (generate_embeddings em texts0 role0 batch_size normalize w)
         = Returned rows /\
         ((texts0 = [] /\ rows = []) \/
          (exists m processed,
              model em = Some m /\
              fst (_apply_role_prefix texts0 role0 w) = Returned processed /\
              encode m processed batch_size normalize = Returned rows)))).
Proof.
  intros em texts0 role0 batch_size normalize w.
  destruct (model em) as [m|] eqn:Hm.
  - assert (Hready : is_ready em = true) by (unfold is_ready; now rewrite Hm).
    split; [rewrite Hready; discriminate|].
    destruct texts0 as [|t ts].
    + split; [intros ? ? ? _ Hne; now contradiction Hne|].
      right. exists []. open_generate Hm.
      split; [reflexivity | left; split; reflexivity].
    + destruct (generate_embeddings_loaded em m t ts role0 batch_size
                  normalize w Hm) as (p & w' & Hp & _ & E).
      rewrite E. cbn [fst]. split.
      * intros m' processed e Hm' _ Hproc Henc.
        injection Hm' as <-. rewrite (Hp w) in Hproc.
        injection Hproc as <-. rewrite Henc. reflexivity.
      * destruct (encode m p batch_size normalize) as [rows|e] eqn:Henc.
        -- right. exists rows. split; [reflexivity|]. right.
           exists m, p. repeat split; [apply Hp | exact Henc].
        -- left. eexists. reflexivity.
  - open_generate Hm. split; [reflexivity|].
    split; [intros ? ? ? Habs; discriminate|].
    left. eexists. reflexivity.
Qed.

Lemma generate_embeddings_all_or_nothing_witness :
  generate_embeddings Demo.unloaded ["Hello world"] None 32 true empty_world
  = (Raised {| exc_class := ValueError;
               exc_str := "Model not loaded. Call _load_model() first.";
               exc_context := None |}, empty_world) /\
  fst (generate_embeddings Demo.loaded_failing ["Hello world"]
         (Some "query") 32 true empty_world)
  = Raised {| exc_class := RuntimeError;
              exc_str := "Embedding generation failed: CUDA out of memory";
              exc_context := Some Demo.out_of_memory |}.
Proof.
  split.
  - apply (proj1 (generate_embeddings_all_or_nothing Demo.unloaded
                    ["Hello world"] None 32 true empty_world)).
    reflexivity.
  - apply (proj1 (proj2 (generate_embeddings_all_or_nothing
                           Demo.loaded_failing ["Hello world"]
                           (Some "query") 32 true empty_world))
             Demo.failing_model ["query: Hello world"] Demo.out_of_memory).
    + reflexivity.
    + discriminate.
    + reflexivity.
    + reflexivity.
Defined.

(** ** Normalisation *)

Example toy_normalized_is_unit :
  unit_norm [1%float; 0%float] = true.
Proof. vm_compute. reflexivity. Qed.

Example toy_unnormalized_is_not_unit :
  fst (generate_embeddings Demo.loaded ["Hello"] None 32 false empty_world)
  = Returned [[Demo.float_of_nat 5; 0%float]] /\
  unit_norm [Demo.float_of_nat 5; 0%float] = false.
Proof. split; vm_compute; reflexivity. Qed.

(** C9. Unit length under [normalize].  Suppose the loaded model keeps
    the library's contract for [normalize_embeddings=True]
    ([encode_normalizes]).  Then for every instance, list of texts, role
    and batch size, every vector [generate_embeddings] returns when
    called with [normalize] true has Euclidean norm 1 within the
    tolerance 1e-5: the flag reaches [encode] as given and the rows come
    back unchanged. *)
Theorem generate_embeddings_unit_norm :
  forall (em : EmbeddingModel) (texts0 : list string)
         (role0 : option string) (batch_size : Z) (w : World)
         (rows : list (list float)),
    (forall m, model em = Some m -> encode_normalizes m) ->
    fst (generate_embeddings em texts0 role0 batch_size true w)
    = Returned rows ->
    forall v, In v rows -> unit_norm v = true.
Proof.
  intros em texts0 role0 batch_size w rows Hnorm Hrun v Hin.
  destruct (model em) as [m|] eqn:Hm.
  - destruct texts0 as [|t ts].
    + unfold generate_embeddings, is_ready in Hrun. rewrite Hm in Hrun.
      cbn in Hrun. injection Hrun as <-. contradiction.
    + destruct (generate_embeddings_loaded em m t ts role0 batch_size
                  true w Hm) as (p & w' & _ & _ & E).
      rewrite E in Hrun. cbn [fst] in Hrun.
      destruct (encode m p batch_size true) as [rows'|e] eqn:Henc;
        [|discriminate].
      injection Hrun as <-.
      exact (Hnorm m eq_refl p batch_size rows' v Henc Hin).
  - unfold generate_embeddings, is_ready in Hrun. rewrite Hm in Hrun.
    discriminate.
Qed.

Lemma generate_embeddings_unit_norm_witness :
  unit_norm [1%float; 0%float] = true.
Proof.
  apply (generate_embeddings_unit_norm Demo.loaded
           ["Hello world"; "This is a test problem"] (Some "passage") 32
           empty_world [[1%float; 0%float]; [1%float; 0%float]]).
  - intros m Hm. injection Hm as <-.
    intros sentences batch_size rows v Henc Hin.
    injection Henc as <-. apply in_map_iff in Hin.
    destruct Hin as (s0 & <- & _). vm_compute. reflexivity.
  - vm_compute. reflexivity.
  - left. reflexivity.
Defined.

(** ** [generate_single_embedding] *)

Example single_hello :
  fst (generate_single_embedding Demo.loaded "Hello" None false empty_world)
  = Returned [Demo.float_of_nat 5; 0%float].
Proof. vm_compute. reflexivity. Qed.

(** C8. For every instance, text, role and normalisation flag,
    [generate_single_embedding] is the batch operation run on the
    one-element list: it raises what the batch raises, returns the first
    (sole) vector of what the batch returns, or the empty vector if the
    batch returned none, with the same effects on the world. *)
Theorem generate_single_embedding_via_batch :
  forall (em : EmbeddingModel) (text : string) (role0 : option string)
         (normalize : bool) (w : World),
    generate_single_embedding em text role0 normalize w
    = single_via_batch em text role0 normalize w.
Proof.
  intros em text role0 normalize w.
  unfold generate_single_embedding, single_via_batch, bind, ret.
  destruct (generate_embeddings em [text] role0 32 normalize w)
    as [[[|sole rest]|e] w']; reflexivity.
Qed.

(** ** The [POST /embed] handler *)

Example embed_hello :
  fst (embed_texts (Some Demo.loaded) Demo.hello_request empty_world)
  = Returned {| vectors := [[1%float; 0%float]; [1%float; 0%float]] |}.
Proof. vm_compute. reflexivity. Qed.

Example embed_hello_invocations :
  encode_calls
    (snd (embed_texts (Some Demo.loaded) Demo.hello_request empty_world))
  = [{| call_sentences := ["passage: Hello world";
                           "passage: This is a test problem"];
        call_batch_size := 32;
        call_normalize_embeddings := true |}].
Proof. vm_compute. reflexivity. Qed.

Example embed_before_startup :
  fst (embed_texts None Demo.hello_request empty_world)
  = Raised {| status_code := 500;
              detail := "Embedding generation failed: 'NoneType' object "
                        ++ "has no attribute 'generate_embeddings'" |}.
Proof. vm_compute. reflexivity. Qed.

(** The outcome of the call on the global instance does not depend on the
    world either. *)
Lemma call_generate_embeddings_outcome_indep :
  forall (embedding_model : option EmbeddingModel) (texts0 : list string)
         (role0 : option string) (w v : World),
    fst (call_generate_embeddings embedding_model texts0 role0 w)
    = fst (call_generate_embeddings embedding_model texts0 role0 v).
Proof.
  intros [em|] texts0 role0 w v; simpl.
  - apply generate_embeddings_outcome_indep.
  - reflexivity.
Qed.

(** The handler on a non-empty batch: its outcome is read off the outcome
    of the call on the global instance. *)
Lemma embed_texts_nonempty :
  forall (embedding_model : option EmbeddingModel) (request : EmbedRequest)
         (w : World),
    texts request <> [] ->
    fst (embed_texts embedding_model request w)
    = match fst (call_generate_embeddings embedding_model
                   (texts request) (role request) w) with
      | Returned rows => Returned {| vectors := rows |}
      | Raised e =>
          Raised {| status_code := 500;
                    detail := "Embedding generation failed: " ++ str e |}
      end.
Proof.
  intros embedding_model request w Hne.
  unfold embed_texts.
  destruct (texts request) as [|t ts] eqn:Ht; [contradiction|].
  cbn [not_list]. unfold try_except, bind at 1, log at 1.
  unfold bind at 1.
  match goal with
  | |- context [call_generate_embeddings ?g ?a ?b ?v] =>
      rewrite (call_generate_embeddings_outcome_indep g a b w v);
      destruct (call_generate_embeddings g a b v) as [[rows|e] w']
  end; reflexivity.
Qed.

(** C2. One vector per text, in order.  Suppose the loaded model answers
    row by row ([encode_rowwise]).  For every request on which
    [embed_texts] returns a response (which it only does for a non-empty
    batch), the response has exactly as many vectors as the request has
    texts, and the vector at each position is the embedding of the text at
    that position with the role prefix in front (the empty prefix when the
    role is unset or unrecognised). *)
Theorem embed_texts_one_vector_per_text :
  forall (embedding_model : option EmbeddingModel)
         (embed1 : bool -> string -> list float)
         (request : EmbedRequest) (response : EmbedResponse)
         (w w' : World),
    (forall em m, embedding_model = Some em -> model em = Some m ->
                  encode_rowwise m embed1) ->
    texts request <> [] ->
    embed_texts embedding_model request w = (Returned response, w') ->
    length (vectors response) = length (texts request) /\
    exists prefix,
      (prefix = "" \/ prefix = "passage: " \/ prefix = "query: ") /\
      vectors response
      = map (fun text => embed1 true (prefix ++ text)) (texts request).
Proof.
  intros embedding_model embed1 request response w w' Hrow Hne Hrun.
  assert (Hout : fst (embed_texts embedding_model request w)
                 = Returned response) by now rewrite Hrun.
  rewrite (embed_texts_nonempty _ _ _ Hne) in Hout.
  destruct embedding_model as [em|]; [|discriminate].
  cbn [call_generate_embeddings] in Hout.
  destruct (model em) as [m|] eqn:Hm;
    [|unfold generate_embeddings, is_ready in Hout; rewrite Hm in Hout;
      discriminate].
  specialize (Hrow em m eq_refl Hm).
  destruct (texts request) as [|t ts] eqn:Ht; [contradiction|].
  destruct (generate_embeddings_loaded em m t ts (role request) 32 true w Hm)
    as (p & w1 & Hp & _ & E).
  rewrite E in Hout. cbn [fst] in Hout.
  destruct (encode m p 32 true) as [rows|e] eqn:Henc; [|discriminate].
  injection Hout as <-. cbn [vectors].
  apply Hrow in Henc. subst rows.
  destruct (apply_role_prefix_shape (t :: ts) (role request) w)
    as (prefix & Hwhich & Hshape).
  assert (p = map (fun text => prefix ++ text) (t :: ts)) as ->
    by (specialize (Hp w); congruence).
  split.
  - now rewrite !length_map.
  - exists prefix. split; [exact Hwhich|]. now rewrite map_map.
Qed.

Lemma embed_texts_one_vector_per_text_witness :
  length (vectors {| vectors := [[1%float; 0%float]; [1%float; 0%float]] |})
  = length (texts Demo.hello_request) /\
  exists prefix,
    (prefix = "" \/ prefix = "passage: " \/ prefix = "query: ") /\
    vectors {| vectors := [[1%float; 0%float]; [1%float; 0%float]] |}
    = map (fun text => Demo.toy_embed1 true (prefix ++ text))
        (texts Demo.hello_request).
Proof.
  apply (embed_texts_one_vector_per_text (Some Demo.loaded) Demo.toy_embed1
           Demo.hello_request
           {| vectors := [[1%float; 0%float]; [1%float; 0%float]] |}
           empty_world
           (snd (embed_texts (Some Demo.loaded) Demo.hello_request
                   empty_world))).
  - intros em m Hem Hm. injection Hem as <-. injection Hm as <-.
    intros sentences batch_size normalize rows Henc.
    injection Henc as <-. reflexivity.
  - discriminate.
  - vm_compute. reflexivity.
Defined.

(** C3. Status of [embed_texts].
    - The handler answers 400 exactly when the request's list of texts is
      empty, and then without touching the world.
    - On a non-empty list, if the call on the global model instance raises
      [e] (whatever [e] is), the handler answers 500 with the detail
      ["Embedding generation failed: "] followed by [str(e)].
    - On a non-empty list, if that call returns rows, the handler returns
      a response (status 200) carrying exactly those rows. *)
Theorem embed_texts_status :
  forall (embedding_model : option EmbeddingModel) (request : EmbedRequest)
         (w : World),
    (response_status (fst (embed_texts embedding_model request w)) = 400%Z
     <-> texts request = []) /\
    (texts request = [] ->
     embed_texts embedding_model request w
     = (Raised {| status_code := 400;
                  detail := "texts list cannot be empty" |}, w)) /\
    (forall e,
        texts request <> [] ->
        fst (call_generate_embeddings embedding_model
               (texts request) (role request) w) = Raised e ->
        fst (embed_texts embedding_model request w)
        = Raised {| status_code := 500;
                    detail := "Embedding generation failed: " ++ str e |}) /\
    (forall rows,
        texts request <> [] ->
        fst (call_generate_embeddings embedding_model
               (texts request) (role request) w) = Returned rows ->
        fst (embed_texts embedding_model request w)
        = Returned {| vectors := rows |} /\
        response_status (fst (embed_texts embedding_model request w))
        = 200%Z).
Proof.
  intros embedding_model request w.
  assert (Hempty : texts request = [] ->
            embed_texts embedding_model request w
            = (Raised {| status_code := 400;
                         detail := "texts list cannot be empty" |}, w)).
  { intros Ht. unfold embed_texts. rewrite Ht. reflexivity. }
  split; [|split; [exact Hempty|split]].
  - split.
    + intros Hstatus.
      destruct (texts request) as [|t ts] eqn:Ht; [reflexivity|].
      assert (Hne : texts request <> []) by (rewrite Ht; discriminate).
      rewrite (embed_texts_nonempty _ _ _ Hne) in Hstatus.
      destruct (fst (call_generate_embeddings embedding_model
                       (texts request) (role request) w));
        simpl in Hstatus; discriminate.
    + intros Ht. rewrite (Hempty Ht). reflexivity.
  - intros e Hne Hgen.
    rewrite (embed_texts_nonempty _ _ _ Hne), Hgen. reflexivity.
  - intros rows Hne Hgen.
    rewrite (embed_texts_nonempty _ _ _ Hne), Hgen. split; reflexivity.
Qed.

Lemma embed_texts_status_witness :
  embed_texts (Some Demo.loaded) {| texts := []; role := None |} empty_world
  = (Raised {| status_code := 400;
               detail := "texts list cannot be empty" |}, empty_world) /\
  fst (embed_texts (Some Demo.loaded_failing) Demo.hello_request empty_world)
  = Raised {| status_code := 500;
              detail := "Embedding generation failed: "
                        ++ str {| exc_class := RuntimeError;
                                  exc_str := "Embedding generation failed: "
                                             ++ "CUDA out of memory";
                                  exc_context := Some Demo.out_of_memory |}
           |} /\
  fst (embed_texts (Some Demo.loaded) Demo.hello_request empty_world)
  = Returned {| vectors := [[1%float; 0%float]; [1%float; 0%float]] |}.
Proof.
  split; [|split].
  - apply (proj1 (proj2 (embed_texts_status (Some Demo.loaded)
                           {| texts := []; role := None |} empty_world))).
    reflexivity.
  - apply (proj1 (proj2 (proj2 (embed_texts_status
                                  (Some Demo.loaded_failing)
                                  Demo.hello_request empty_world)))).
    + discriminate.
    + reflexivity.
  - apply (proj2 (proj2 (proj2 (embed_texts_status (Some Demo.loaded)
                                  Demo.hello_request empty_world)))).
    + discriminate.
    + vm_compute. reflexivity.
Defined.

(** ** Request validation *)

Example validate_empty :
  EmbedRequest_validate [] (Some "query") = Raised (too_short "texts" 1 0).
Proof. reflexivity. Qed.

(** C10. A request that passed validation has at least one text, so
    [embed_texts] never takes its empty-texts branch on it: whatever the
    global instance and the world, the handler's status is not 400 and its
    outcome is not the empty-texts error. *)
Theorem validated_request_never_400 :
  forall (texts0 : list string) (role0 : option string)
         (request : EmbedRequest),
    EmbedRequest_validate texts0 role0 = Returned request ->
    texts request <> [] /\
    (1 <= length (texts request))%nat /\
    forall (embedding_model : option EmbeddingModel) (w : World),
      response_status (fst (embed_texts embedding_model request w)) <> 400%Z /\
      fst (embed_texts embedding_model request w)
      <> Raised {| status_code := 400;
                   detail := "texts list cannot be empty" |}.
Proof.
  intros texts0 role0 request Hval.
  unfold EmbedRequest_validate, texts_min_items in Hval.
  destruct (Nat.leb_spec 1 (length texts0)) as [Hlen|Hlen]; [|discriminate].
  injection Hval as <-. cbn [texts].
  assert (Hne : texts0 <> []) by (intros ->; simpl in Hlen; lia).
  split; [exact Hne|]. split; [exact Hlen|].
  intros embedding_model w.
  rewrite (embed_texts_nonempty embedding_model
             {| texts := texts0; role := role0 |} w Hne).
  destruct (fst (call_generate_embeddings _ _ _ _));
    split; simpl; discriminate.
Qed.

Lemma validated_request_never_400_witness :
  texts Demo.hello_request <> [] /\
  (1 <= length (texts Demo.hello_request))%nat /\
  forall (embedding_model : option EmbeddingModel) (w : World),
    response_status (fst (embed_texts embedding_model Demo.hello_request w))
    <> 400%Z /\
    fst (embed_texts embedding_model Demo.hello_request w)
    <> Raised {| status_code := 400;
                 detail := "texts list cannot be empty" |}.
Proof.
  apply (validated_request_never_400
           ["Hello world"; "This is a test problem"] (Some "passage")
           Demo.hello_request).
  reflexivity.
Defined.

(** ** Startup and the [GET /health] handler *)

Example startup_log :
  map log_message (log_records (snd (lifespan_startup Demo.toy_hub
                                       empty_world)))
  = ["Starting embedding service...";
     "Loading embedding model: intfloat/multilingual-e5-base";
     "Model loaded successfully";
     "Model max sequence length: 512";
     "Model dimensions: 2";
     "Embedding model loaded successfully"].
Proof. vm_compute. reflexivity. Qed.

(** When startup succeeds, the global holds an instance named by
    [__init__]'s default whose model is loaded. *)
Lemma lifespan_startup_loaded :
  forall (hub : string -> Outcome Exception SentenceTransformer)
         (global : option EmbeddingModel) (w w' : World),
    lifespan_startup hub w = (Returned global, w') ->
    exists em,
      global = Some em /\
      model_name em = default_model_name /\
      is_ready em = true.
Proof.
  intros hub global w w' Hrun.
  unfold lifespan_startup, EmbeddingModel_init, _load_model in Hrun.
  run_eff.
  destruct (hub default_model_name) as [m|e]; simpl in Hrun;
    [|discriminate].
  injection Hrun as <- _. eexists. repeat split.
Qed.

Example health_before_startup :
  health_check None empty_world
  = (Returned {| status := "unhealthy"; model_loaded := false;
                 health_model_name := "intfloat/multilingual-e5-base" |},
     empty_world).
Proof. reflexivity. Qed.

(** C7. [health_check] never fails: for every value of the global
    instance and every world it returns a body and leaves the world
    unchanged.  The body's status is ["healthy"] if and only if an
    instance exists and reports itself ready, and ["unhealthy"] otherwise;
    [model_loaded] is that same boolean; the model name is the identifier
    the service is configured with, that is [__init__]'s default, which is
    the name of the instance [lifespan] creates. *)
Theorem health_check_total :
  forall (embedding_model : option EmbeddingModel) (w : World),
  exists body,
    health_check embedding_model w = (Returned body, w) /\
    (status body = "healthy" <->
     exists em, embedding_model = Some em /\ is_ready em = true) /\
    (status body = "healthy" \/ status body = "unhealthy") /\
    (model_loaded body = true <->
     exists em, embedding_model = Some em /\ is_ready em = true) /\
    health_model_name body = default_model_name /\
    (forall hub v v',
        lifespan_startup hub v = (Returned embedding_model, v') ->
        exists em,
          embedding_model = Some em /\
          model_name em = health_model_name body /\
          status body = "healthy" /\ model_loaded body = true).
Proof.
  intros embedding_model w. eexists. split; [reflexivity|].
  cbn [status model_loaded health_model_name].
  assert (Hready :
            (match embedding_model with
             | None => false
             | Some em => is_ready em
             end) = true <->
            exists em, embedding_model = Some em /\ is_ready em = true).
  { destruct embedding_model as [em|]; split.
    - intros H. exists em. split; [reflexivity | exact H].
    - intros (em' & Hem & H). injection Hem as <-. exact H.
    - discriminate.
    - intros (em' & Hem & _). discriminate. }
  split; [|split; [|split; [exact Hready|split; [reflexivity|]]]].
  - rewrite <- Hready.
    destruct (match embedding_model with
              | None => false
              | Some em => is_ready em
              end); split; (reflexivity || discriminate).
  - destruct (match embedding_model with
              | None => false
              | Some em => is_ready em
              end); [left | right]; reflexivity.
  - intros hub v v' Hrun.
    destruct (lifespan_startup_loaded hub embedding_model v v' Hrun)
      as (em & -> & Hname & Hrdy).
    exists em. rewrite Hrdy. repeat split. exact Hname.
Qed.

Lemma health_check_total_witness :
  exists body,
    health_check (Some Demo.loaded) empty_world = (Returned body, empty_world)
    /\ status body = "healthy"
    /\ model_loaded body = true
    /\ health_model_name body = "intfloat/multilingual-e5-base"
    /\ model_name Demo.loaded = health_model_name body.
Proof.
  destruct (health_check_total (Some Demo.loaded) empty_world)
    as (body & Hrun & Hstatus & _ & Hloaded & Hname & Hstart).
  exists body. split; [exact Hrun|].
  assert (Hex : exists em, Some Demo.loaded = Some em /\ is_ready em = true)
    by (exists Demo.loaded; split; reflexivity).
  split; [apply Hstatus; exact Hex|].
  split; [apply Hloaded; exact Hex|].
  split; [exact Hname|].
  destruct (Hstart Demo.toy_hub empty_world
              (snd (lifespan_startup Demo.toy_hub empty_world)))
    as (em & Hem & Hn & _).
  - vm_compute. reflexivity.
  - injection Hem as <-. exact Hn.
Defined.

(** * Further properties of the code *)

Import Info.

(** ** Construction and startup *)

(** What [_load_model] does, by the loader's answer: the instance with the
    model assigned and four INFO records, or the loader's exception
    re-raised after one INFO and one ERROR record. *)
Lemma load_model_run :
  forall (hub : string -> Outcome Exception SentenceTransformer)
         (self : EmbeddingModel) (w : World),
    _load_model hub self w
    = match hub (model_name self) with
      | Returned m =>
          (Returned {| model_name := model_name self; model := Some m |},
           {| encode_calls := encode_calls w;
              log_records :=
                log_records w ++
                [{| log_name := embedding_model_logger; log_level := INFO;
                    log_message := "Loading embedding model: "
                                   ++ model_name self |};
                 {| log_name := embedding_model_logger; log_level := INFO;
                    log_message := "Model loaded successfully" |};
                 {| log_name := embedding_model_logger; log_level := INFO;
                    log_message := "Model max sequence length: "
                                   ++ str_opt_int (get_max_seq_length m) |};
                 {| log_name := embedding_model_logger; log_level := INFO;
                    log_message :=
                      "Model dimensions: "
                      ++ str_opt_int (get_sentence_embedding_dimension m) |}]
           |})
      | Raised e =>
          (Raised e,
           {| encode_calls := encode_calls w;
              log_records :=
                log_records w ++
                [{| log_name := embedding_model_logger; log_level := INFO;
                    log_message := "Loading embedding model: "
                                   ++ model_name self |};
                 {| log_name := embedding_model_logger; log_level := ERROR;
                    log_message := "Failed to load model " ++ model_name self
                                   ++ ": " ++ str e |}]
           |})
      end.
Proof.
  intros hub self w. unfold _load_model, Model.logger. run_eff.
  destruct (hub (model_name self)) as [m|e]; simpl;
    repeat rewrite <- app_assoc; reflexivity.
Qed.

(** X1. Every instance the constructor returns is ready.  If
    [EmbeddingModel(name)] returns, the instance keeps [name], holds
    exactly the model the loader gave for [name], reports itself ready,
    and the model has not been invoked during construction. *)
Theorem EmbeddingModel_init_ready :
  forall (hub : string -> Outcome Exception SentenceTransformer)
         (name : string) (em : EmbeddingModel) (w w' : World),
    EmbeddingModel_init hub name w = (Returned em, w') ->
    is_ready em = true /\
    model_name em = name /\
    (exists m, hub name = Returned m /\ model em = Some m) /\
    encode_calls w' = encode_calls w.
Proof.
  intros hub name em w w' Hrun.
  unfold EmbeddingModel_init in Hrun. rewrite load_model_run in Hrun.
  cbn [model_name] in Hrun.
  destruct (hub name) as [m|e]; [|discriminate].
  injection Hrun as <- <-. repeat split. exists m. split; reflexivity.
Qed.

Lemma EmbeddingModel_init_ready_witness :
  is_ready Demo.loaded = true /\
  model_name Demo.loaded = "intfloat/multilingual-e5-base" /\
  (exists m, Demo.toy_hub "intfloat/multilingual-e5-base" = Returned m /\
             model Demo.loaded = Some m) /\
  encode_calls
    (snd (EmbeddingModel_init Demo.toy_hub "intfloat/multilingual-e5-base"
            empty_world))
  = encode_calls empty_world.
Proof.
  apply (EmbeddingModel_init_ready Demo.toy_hub
           "intfloat/multilingual-e5-base" Demo.loaded empty_world
           (snd (EmbeddingModel_init Demo.toy_hub
                   "intfloat/multilingual-e5-base" empty_world))).
  vm_compute. reflexivity.
Defined.

Example startup_failure_log :
  map (fun r => (log_name r, log_level r, log_message r))
    (log_records (snd (lifespan_startup DemoStartup.failing_hub
                         empty_world)))
  = [(app_logger, INFO, "Starting embedding service...");
     (embedding_model_logger, INFO,
      "Loading embedding model: intfloat/multilingual-e5-base");
     (embedding_model_logger, ERROR,
      "Failed to load model intfloat/multilingual-e5-base: model not found");
     (app_logger, ERROR,
      "Failed to load embedding model: model not found")].
Proof. vm_compute. reflexivity. Qed.

(** X2. A failed load is never swallowed or wrapped.  When the loader
    raises [e] for the default model name, [lifespan] raises that same
    [e] (so the global instance is never assigned), the model is not
    invoked, and the failure is logged twice at ERROR level, once by each
    module's logger, after the two INFO records of the attempt. *)
Theorem lifespan_startup_failure :
  forall (hub : string -> Outcome Exception SentenceTransformer)
         (e : Exception) (w : World),
    hub default_model_name = Raised e ->
    fst (lifespan_startup hub w) = Raised e /\
    encode_calls (snd (lifespan_startup hub w)) = encode_calls w /\
    log_records (snd (lifespan_startup hub w))
    = (log_records w ++
       [{| log_name := app_logger; log_level := INFO;
           log_message := "Starting embedding service..." |};
        {| log_name := embedding_model_logger; log_level := INFO;
           log_message := "Loading embedding model: "
                          ++ default_model_name |};
        {| log_name := embedding_model_logger; log_level := ERROR;
           log_message := "Failed to load model " ++ default_model_name
                          ++ ": " ++ str e |};
        {| log_name := app_logger; log_level := ERROR;
           log_message := "Failed to load embedding model: " ++ str e |}]
      )%list.
Proof.
  intros hub e w Hhub.
  unfold lifespan_startup, EmbeddingModel_init, App.logger.
  unfold bind, try_except, log, ret, raise. cbv beta.
  rewrite load_model_run. cbn [model_name]. rewrite Hhub.
  cbn [fst snd encode_calls log_records].
  repeat split. repeat rewrite <- app_assoc. reflexivity.
Qed.

Lemma lifespan_startup_failure_witness :
  fst (lifespan_startup DemoStartup.failing_hub empty_world)
  = Raised DemoStartup.not_found /\
  encode_calls (snd (lifespan_startup DemoStartup.failing_hub empty_world))
  = encode_calls empty_world.
Proof.
  destruct (lifespan_startup_failure DemoStartup.failing_hub
              DemoStartup.not_found empty_world eq_refl)
    as (Hout & Hcalls & _).
  split; [exact Hout | exact Hcalls].
Defined.

(** ** [get_model_info] *)

Example info_unloaded :
  fst (get_model_info Demo.unloaded empty_world)
  = Returned [("loaded", PyBool false)].
Proof. reflexivity. Qed.

(** X3. [get_model_info] never raises and has no effect.  Its dictionary
    always has the key ["loaded"], holding [is_ready].  On an instance
    that is not loaded that is the only key (the other three are
    missing); on a loaded one the keys are, in order, ["loaded"],
    ["model_name"], ["max_sequence_length"], ["embedding_dimension"], with
    the instance's name and what the model's two getters return. *)
Theorem get_model_info_keys :
  forall (em : EmbeddingModel) (w : World),
  exists d,
    get_model_info em w = (Returned d, w) /\
    dict_get "loaded" d = Some (PyBool (is_ready em)) /\
    (is_ready em = false ->
     dict_keys d = ["loaded"] /\
     dict_get "model_name" d = None /\
     dict_get "max_sequence_length" d = None /\
     dict_get "embedding_dimension" d = None) /\
    (forall m, model em = Some m ->
       dict_keys d = ["loaded"; "model_name"; "max_sequence_length";
                      "embedding_dimension"] /\
       dict_get "model_name" d = Some (PyStr (model_name em)) /\
       dict_get "max_sequence_length" d
       = Some (of_opt_int (get_max_seq_length m)) /\
       dict_get "embedding_dimension" d
       = Some (of_opt_int (get_sentence_embedding_dimension m))).
Proof.
  intros em w. unfold get_model_info, is_ready.
  destruct (model em) as [m|] eqn:Hm; cbn [negb].
  - eexists. split; [reflexivity|]. split; [reflexivity|].
    split; [discriminate|].
    intros m' Hm'. injection Hm' as <-. repeat split.
  - eexists. split; [reflexivity|]. split; [reflexivity|].
    split; [intros _; repeat split | discriminate].
Qed.

Lemma get_model_info_keys_witness :
  exists d,
    get_model_info Demo.loaded empty_world = (Returned d, empty_world) /\
    dict_get "model_name" d
    = Some (PyStr "intfloat/multilingual-e5-base") /\
    dict_get "embedding_dimension" d = Some (PyInt 2).
Proof.
  destruct (get_model_info_keys Demo.loaded empty_world)
    as (d & Hrun & _ & _ & Hloaded).
  destruct (Hloaded Demo.toy_model eq_refl) as (_ & Hname & _ & Hdim).
  exists d. split; [exact Hrun|]. split; [exact Hname | exact Hdim].
Defined.

(** X4. Construction followed by [get_model_info]: on an instance the
    constructor returned for [name], the dictionary says loaded, carries
    [name] as the model name and the dimension of the very model the
    loader gave for [name]. *)
Theorem get_model_info_after_init :
  forall (hub : string -> Outcome Exception SentenceTransformer)
         (name : string) (em : EmbeddingModel) (w w' v : World),
    EmbeddingModel_init hub name w = (Returned em, w') ->
    exists d m,
      hub name = Returned m /\
      get_model_info em v = (Returned d, v) /\
      dict_get "loaded" d = Some (PyBool true) /\
      dict_get "model_name" d = Some (PyStr name) /\
      dict_get "max_sequence_length" d
      = Some (of_opt_int (get_max_seq_length m)) /\
      dict_get "embedding_dimension" d
      = Some (of_opt_int (get_sentence_embedding_dimension m)).
Proof.
  intros hub name em w w' v Hrun.
  unfold EmbeddingModel_init in Hrun. rewrite load_model_run in Hrun.
  cbn [model_name] in Hrun.
  destruct (hub name) as [m|e]; [|discriminate].
  injection Hrun as <- _.
  eexists. exists m. split; [reflexivity|].
  split; [reflexivity|]. repeat split.
Qed.

Lemma get_model_info_after_init_witness :
  exists d m,
    Demo.toy_hub "intfloat/multilingual-e5-base" = Returned m /\
    get_model_info Demo.loaded empty_world = (Returned d, empty_world) /\
    dict_get "loaded" d = Some (PyBool true) /\
    dict_get "model_name" d
    = Some (PyStr "intfloat/multilingual-e5-base") /\
    dict_get "max_sequence_length" d
    = Some (of_opt_int (get_max_seq_length m)) /\
    dict_get "embedding_dimension" d
    = Some (of_opt_int (get_sentence_embedding_dimension m)).
Proof.
  apply (get_model_info_after_init Demo.toy_hub
           "intfloat/multilingual-e5-base" Demo.loaded empty_world
           (snd (EmbeddingModel_init Demo.toy_hub
                   "intfloat/multilingual-e5-base" empty_world))
           empty_world).
  vm_compute. reflexivity.
Defined.

(** ** Invocations of the model *)

(** X5. [generate_embeddings] hands the whole batch to the model in one
    call.  On a ready instance and a non-empty batch it invokes [encode]
    exactly once, with all the prefixed texts and with the caller's
    [batch_size] and [normalize] unchanged (splitting into sub-batches is
    left to the library); on an instance that is not ready, or on an empty
    batch, it does not invoke the model at all. *)
Theorem generate_embeddings_invokes_once :
  forall (em : EmbeddingModel) (texts0 : list string)
         (role0 : option string) (batch_size : Z) (normalize : bool)
         (w : World),
    (is_ready em = true -> texts0 <> [] ->
     exists processed,
       fst (_apply_role_prefix texts0 role0 w) = Returned processed /\
       encode_calls
         (snd (generate_embeddings em texts0 role0 batch_size normalize w))
       = (encode_calls w ++
          [{| call_sentences := processed;
              call_batch_size := batch_size;
              call_normalize_embeddings := normalize |}])%list) /\
    (is_ready em = false \/ texts0 = [] ->
     encode_calls
       (snd (generate_embeddings em texts0 role0 batch_size normalize w))
     = encode_calls w).
Proof.
  intros em texts0 role0 batch_size normalize w. split.
  - intros Hready Hne. unfold is_ready in Hready.
    destruct (model em) as [m|] eqn:Hm; [|discriminate].
    destruct texts0 as [|t ts]; [contradiction|].
    destruct (generate_embeddings_loaded em m t ts role0 batch_size
                normalize w Hm) as (p & w' & Hp & Hcalls & E).
    exists p. split; [apply Hp|]. rewrite E. exact Hcalls.
  - intros [Hnot | ->].
    + unfold generate_embeddings. rewrite Hnot. reflexivity.
    + unfold generate_embeddings.
      destruct (is_ready em); reflexivity.
Qed.

Lemma generate_embeddings_invokes_once_witness :
  (exists processed,
      fst (_apply_role_prefix ["a"; "b"; "c"] (Some "query") empty_world)
      = Returned processed /\
      encode_calls
        (snd (generate_embeddings Demo.loaded ["a"; "b"; "c"]
                (Some "query") 2 false empty_world))
      = (encode_calls empty_world ++
         [{| call_sentences := processed;
             call_batch_size := 2;
             call_normalize_embeddings := false |}])%list) /\
  encode_calls
    (snd (generate_embeddings Demo.unloaded ["a"; "b"; "c"]
            (Some "query") 2 false empty_world))
  = encode_calls empty_world.
Proof.
  split.
  - apply (proj1 (generate_embeddings_invokes_once Demo.loaded
                    ["a"; "b"; "c"] (Some "query") 2 false empty_world)).
    + reflexivity.
    + discriminate.
  - apply (proj2 (generate_embeddings_invokes_once Demo.unloaded
                    ["a"; "b"; "c"] (Some "query") 2 false empty_world)).
    left. reflexivity.
Defined.

(** ** The [POST /embed] handler, end to end *)

(** The handler on a loaded instance and a non-empty batch: one invocation
    with batch size 32 and normalisation on, and an outcome read off the
    model's answer. *)
Lemma embed_texts_loaded :
  forall (em : EmbeddingModel) (m : SentenceTransformer)
         (request : EmbedRequest) (w : World),
    model em = Some m ->
    texts request <> [] ->
    exists prefix,
      (prefix = "" \/ prefix = "passage: " \/ prefix = "query: ") /\
      (forall v, fst (_apply_role_prefix (texts request) (role request) v)
                 = Returned (map (fun text => prefix ++ text)
                               (texts request))) /\
      encode_calls (snd (embed_texts (Some em) request w))
      = (encode_calls w ++
         [{| call_sentences := map (fun text => (prefix ++ text)%string)
                                 (texts request);
             call_batch_size := 32;
             call_normalize_embeddings := true |}])%list /\
      fst (embed_texts (Some em) request w)
      = match encode m (map (fun text => prefix ++ text) (texts request))
                32 true with
        | Returned rows => Returned {| vectors := rows |}
        | Raised e =>
            Raised {| status_code := 500;
                      detail := "Embedding generation failed: "
                                ++ "Embedding generation failed: "
                                ++ str e |}
        end.
Proof.
  intros em m request w Hm Hne.
  destruct (texts request) as [|t ts] eqn:Ht; [contradiction|].
  destruct (apply_role_prefix_shape (t :: ts) (role request) w)
    as (prefix & Hwhich & Hshape).
  exists prefix. split; [exact Hwhich|].
  unfold embed_texts. rewrite Ht. cbn [not_list call_generate_embeddings].
  unfold try_except, bind, log, ret, raise. cbv beta.
  match goal with
  | |- context [generate_embeddings em (t :: ts) ?r ?b ?n ?v] =>
      destruct (generate_embeddings_loaded em m t ts r b n v Hm)
        as (p & w' & Hp & Hcalls & E); rewrite E
  end.
  assert (p = map (fun text => prefix ++ text) (t :: ts)) as ->
    by (specialize (Hp w); congruence).
  split; [exact Hp|].
  cbn [encode_calls] in Hcalls.
  destruct (encode m (map (fun text => prefix ++ text) (t :: ts)) 32 true)
    as [rows|e]; cbn [fst snd encode_calls log_records];
    rewrite Hcalls; split; reflexivity.
Qed.

(** The handler when no loaded instance is there: a 500 that names the
    reason, and no invocation. *)
Lemma embed_texts_not_ready :
  forall (embedding_model : option EmbeddingModel)
         (request : EmbedRequest) (w : World),
    texts request <> [] ->
    (forall em, embedding_model = Some em -> is_ready em = false) ->
    encode_calls (snd (embed_texts embedding_model request w))
    = encode_calls w /\
    fst (embed_texts embedding_model request w)
    = Raised
        {| status_code := 500;
           detail :=
             "Embedding generation failed: "
             ++ match embedding_model with
                | None => "'NoneType' object has no attribute "
                          ++ "'generate_embeddings'"
                | Some _ => "Model not loaded. Call _load_model() first."
                end |}.
Proof.
  intros embedding_model request w Hne Hnot.
  destruct (texts request) as [|t ts] eqn:Ht; [contradiction|].
  unfold embed_texts. rewrite Ht. cbn [not_list].
  destruct embedding_model as [em|]; cbn [call_generate_embeddings].
  - unfold generate_embeddings. rewrite (Hnot em eq_refl).
    split; reflexivity.
  - split; reflexivity.
Qed.

(** The prefix the step puts in front of every text, read off the role:
    ["passage: "] for ["passage"], ["query: "] for ["query"], the empty
    string for every other role and for none. *)
Lemma apply_role_prefix_by_role :
  forall (texts0 : list string) (role0 : option string) (w : World),
  exists prefix,
    (role0 = Some "passage" -> prefix = "passage: ") /\
    (role0 = Some "query" -> prefix = "query: ") /\
    (role0 <> Some "passage" -> role0 <> Some "query" -> prefix = "") /\
    fst (_apply_role_prefix texts0 role0 w)
    = Returned (map (fun text => prefix ++ text) texts0).
Proof.
  intros texts0 role0 w.
  assert (Hid : map (fun text => "" ++ text) texts0 = texts0)
    by apply map_id.
  destruct role0 as [r|].
  - destruct (string_dec r "passage") as [->|Hp].
    { exists "passage: ". repeat split; try discriminate.
      intros Habs. now contradiction Habs. }
    destruct (string_dec r "query") as [->|Hq].
    { exists "query: ". repeat split; try discriminate.
      intros _ Habs. now contradiction Habs. }
    exists "". split; [intros E; injection E as ->; now contradiction Hp|].
    split; [intros E; injection E as ->; now contradiction Hq|].
    split; [reflexivity|]. rewrite Hid.
    apply apply_role_prefix_unrecognized; assumption.
  - exists "". repeat split; try discriminate. rewrite Hid. reflexivity.
Qed.

(** X6. The handler fixes the model's parameters.  Whatever the request,
    [embed_texts] invokes the model at most once; it does so exactly when
    a ready instance is there and the list of texts is non-empty, and then
    always with batch size 32 and normalisation on, on exactly the texts
    [_apply_role_prefix] makes of the request's texts and role: in order,
    each with ["passage: "] in front when the role is ["passage"], with
    ["query: "] when it is ["query"], and unchanged for any other role or
    none.  A request has no way to change the batch size or the
    normalisation. *)
Theorem embed_texts_invocation :
  forall (embedding_model : option EmbeddingModel)
         (request : EmbedRequest) (w : World),
    ((exists em, embedding_model = Some em /\ is_ready em = true) ->
     texts request <> [] ->
     exists prefix,
       (role request = Some "passage" -> prefix = "passage: ") /\
       (role request = Some "query" -> prefix = "query: ") /\
       (role request <> Some "passage" -> role request <> Some "query" ->
        prefix = "") /\
       fst (_apply_role_prefix (texts request) (role request) w)
       = Returned (map (fun text => prefix ++ text) (texts request)) /\
       encode_calls (snd (embed_texts embedding_model request w))
       = (encode_calls w ++
          [{| call_sentences := map (fun text => (prefix ++ text)%string)
                                  (texts request);
              call_batch_size := 32;
              call_normalize_embeddings := true |}])%list) /\
    ((forall em, embedding_model = Some em -> is_ready em = false) \/
     texts request = [] ->
     encode_calls (snd (embed_texts embedding_model request w))
     = encode_calls w).
Proof.
  intros embedding_model request w. split.
  - intros (em & -> & Hready) Hne. unfold is_ready in Hready.
    destruct (model em) as [m|] eqn:Hm; [|discriminate].
    destruct (embed_texts_loaded em m request w Hm Hne)
      as (p & _ & Hp & Hcalls & _).
    destruct (apply_role_prefix_by_role (texts request) (role request) w)
      as (prefix & Hpassage & Hquery & Hother & Hshape).
    assert (Hsame : map (fun text => p ++ text) (texts request)
                    = map (fun text => prefix ++ text) (texts request))
      by (specialize (Hp w); congruence).
    rewrite Hsame in Hcalls.
    exists prefix. repeat split; assumption.
  - intros [Hnot | Hempty].
    + destruct (texts request) as [|t ts] eqn:Ht.
      * unfold embed_texts. rewrite Ht. reflexivity.
      * apply embed_texts_not_ready; [rewrite Ht; discriminate | exact Hnot].
    + unfold embed_texts. rewrite Hempty. reflexivity.
Qed.

Lemma embed_texts_invocation_witness :
  (exists prefix,
      prefix = "query: " /\
      fst (_apply_role_prefix (texts DemoStartup.query_request)
             (role DemoStartup.query_request) empty_world)
      = Returned (map (fun text => prefix ++ text)
                    (texts DemoStartup.query_request)) /\
      encode_calls
        (snd (embed_texts (Some Demo.loaded) DemoStartup.query_request
                empty_world))
      = (encode_calls empty_world ++
         [{| call_sentences := map (fun text => (prefix ++ text)%string)
                                 (texts DemoStartup.query_request);
             call_batch_size := 32;
             call_normalize_embeddings := true |}])%list) /\
  encode_calls
    (snd (embed_texts None DemoStartup.query_request empty_world))
  = encode_calls empty_world.
Proof.
  split.
  - destruct (proj1 (embed_texts_invocation (Some Demo.loaded)
                       DemoStartup.query_request empty_world))
      as (prefix & _ & Hquery & _ & Hshape & Hcalls).
    + exists Demo.loaded. split; reflexivity.
    + discriminate.
    + exists prefix. split; [apply Hquery; reflexivity|].
      split; [exact Hshape | exact Hcalls].
  - apply (proj2 (embed_texts_invocation None DemoStartup.query_request
                    empty_world)).
    left. discriminate.
Defined.

Example detail_on_model_failure :
  fst (embed_texts (Some Demo.loaded_failing) DemoStartup.query_request
         empty_world)
  = Raised {| status_code := 500;
              detail := "Embedding generation failed: Embedding "
                        ++ "generation failed: CUDA out of memory" |}.
Proof. vm_compute. reflexivity. Qed.

(** X7. What the 500 detail says.  On a non-empty request the detail of a
    500 answer is one of three texts.  When the model's [encode] raises
    [e], the prefix ["Embedding generation failed: "] appears twice before
    [str(e)], since [generate_embeddings] and the handler each add it;
    when the instance has no model, it is that prefix followed by
    ["Model not loaded. Call _load_model() first."]; when there is no
    instance at all, by Python's message for calling a method on
    [None]. *)
Theorem embed_texts_500_detail :
  forall (embedding_model : option EmbeddingModel)
         (request : EmbedRequest) (w : World) (exc : HTTPException),
    texts request <> [] ->
    fst (embed_texts embedding_model request w) = Raised exc ->
    status_code exc = 500%Z /\
    ((exists em m processed e,
         embedding_model = Some em /\ model em = Some m /\
         fst (_apply_role_prefix (texts request) (role request) w)
         = Returned processed /\
         encode m processed 32 true = Raised e /\
         detail exc = "Embedding generation failed: "
                      ++ "Embedding generation failed: " ++ str e) \/
     (exists em,
         embedding_model = Some em /\ is_ready em = false /\
         detail exc = "Embedding generation failed: "
                      ++ "Model not loaded. Call _load_model() first.") \/
     (embedding_model = None /\
      detail exc = "Embedding generation failed: "
                   ++ "'NoneType' object has no attribute "
                   ++ "'generate_embeddings'")).
Proof.
  intros embedding_model request w exc Hne Hrun.
  destruct embedding_model as [em|].
  - destruct (model em) as [m|] eqn:Hm.
    + destruct (embed_texts_loaded em m request w Hm Hne)
        as (prefix & _ & Hp & _ & Hout).
      rewrite Hout in Hrun.
      destruct (encode m (map (fun text => prefix ++ text) (texts request))
                  32 true) as [rows|e] eqn:Henc; [discriminate|].
      injection Hrun as <-. split; [reflexivity|]. left.
      exists em, m, (map (fun text => prefix ++ text) (texts request)), e.
      repeat split; try assumption. apply Hp.
    + assert (Hnot : forall em', Some em = Some em' -> is_ready em' = false).
      { intros em' Hem. injection Hem as <-. unfold is_ready.
        now rewrite Hm. }
      destruct (embed_texts_not_ready (Some em) request w Hne Hnot)
        as (_ & Hout).
      rewrite Hout in Hrun. injection Hrun as <-.
      split; [reflexivity|]. right. left. exists em.
      repeat split. apply Hnot. reflexivity.
    - destruct (embed_texts_not_ready None request w Hne) as (_ & Hout);
        [discriminate|].
      rewrite Hout in Hrun. injection Hrun as <-.
      split; [reflexivity|]. right. right. split; reflexivity.
Qed.

Lemma embed_texts_500_detail_witness :
  status_code
    {| status_code := 500;
       detail := "Embedding generation failed: Embedding "
                 ++ "generation failed: CUDA out of memory" |} = 500%Z.
Proof.
  apply (embed_texts_500_detail (Some Demo.loaded_failing)
           DemoStartup.query_request empty_world
           {| status_code := 500;
              detail := "Embedding generation failed: Embedding "
                        ++ "generation failed: CUDA out of memory" |}).
  - discriminate.
  - vm_compute. reflexivity.
Defined.

(** X8. When the handler succeeds.  [embed_texts] returns a response if
    and only if an instance with a loaded model is there, the list of
    texts is non-empty and the model's [encode] returns on the prefixed
    texts (with batch size 32 and normalisation on); the response's
    vectors are then exactly the rows [encode] returned, untouched. *)
Theorem embed_texts_success_iff :
  forall (embedding_model : option EmbeddingModel)
         (request : EmbedRequest) (w : World) (response : EmbedResponse),
    fst (embed_texts embedding_model request w) = Returned response <->
    exists em m processed,
      embedding_model = Some em /\ model em = Some m /\
      texts request <> [] /\
      fst (_apply_role_prefix (texts request) (role request) w)
      = Returned processed /\
      encode m processed 32 true = Returned (vectors response).
Proof.
  intros embedding_model request w response. split.
  - intros Hrun.
    assert (Hne : texts request <> []).
    { intros Hempty. unfold embed_texts in Hrun. rewrite Hempty in Hrun.
      discriminate. }
    destruct embedding_model as [em|].
    + destruct (model em) as [m|] eqn:Hm.
      * destruct (embed_texts_loaded em m request w Hm Hne)
          as (prefix & _ & Hp & _ & Hout).
        rewrite Hout in Hrun.
        destruct (encode m (map (fun text => prefix ++ text)
                              (texts request)) 32 true)
          as [rows|e] eqn:Henc; [|discriminate].
        injection Hrun as <-.
        exists em, m, (map (fun text => prefix ++ text) (texts request)).
        repeat split; try assumption. apply Hp.
      * assert (Hnot : forall em', Some em = Some em' ->
                                   is_ready em' = false).
        { intros em' Hem. injection Hem as <-. unfold is_ready.
          now rewrite Hm. }
        destruct (embed_texts_not_ready (Some em) request w Hne Hnot)
          as (_ & Hout).
        rewrite Hout in Hrun. discriminate.
    + destruct (embed_texts_not_ready None request w Hne) as (_ & Hout);
        [discriminate|].
      rewrite Hout in Hrun. discriminate.
  - intros (em & m & processed & -> & Hm & Hne & Hproc & Henc).
    destruct (embed_texts_loaded em m request w Hm Hne)
      as (prefix & _ & Hp & _ & Hout).
    rewrite (Hp w) in Hproc. injection Hproc as <-.
    rewrite Hout, Henc. destruct response. reflexivity.
Qed.

(** When startup succeeds, the global holds an instance whose model is the
    one the loader gave for the default name. *)
Lemma lifespan_startup_returns :
  forall (hub : string -> Outcome Exception SentenceTransformer)
         (global : option EmbeddingModel) (w w' : World),
    lifespan_startup hub w = (Returned global, w') ->
    exists m,
      hub default_model_name = Returned m /\
      global = Some {| model_name := default_model_name; model := Some m |}.
Proof.
  intros hub global w w' Hrun.
  unfold lifespan_startup, EmbeddingModel_init in Hrun.
  unfold bind, try_except, log, ret, raise in Hrun. cbv beta in Hrun.
  rewrite load_model_run in Hrun. cbn [model_name] in Hrun.
  destruct (hub default_model_name) as [m|e]; [|discriminate].
  injection Hrun as <- _. exists m. split; reflexivity.
Qed.

(** X9. After a successful startup the model-not-ready errors cannot
    occur.  If [lifespan] returned the global instance, then whenever
    [embed_texts] fails on it, either the list of texts was empty (400),
    or the model's [encode] itself raised some [e] on the prefixed texts
    and the answer is the 500 whose detail carries [str(e)]. *)
Theorem embed_texts_after_startup :
  forall (hub : string -> Outcome Exception SentenceTransformer)
         (global : option EmbeddingModel) (w0 w1 : World)
         (request : EmbedRequest) (w : World) (exc : HTTPException),
    lifespan_startup hub w0 = (Returned global, w1) ->
    fst (embed_texts global request w) = Raised exc ->
    (texts request = [] /\
     exc = {| status_code := 400;
              detail := "texts list cannot be empty" |}) \/
    (exists m processed e,
        hub default_model_name = Returned m /\
        texts request <> [] /\
        fst (_apply_role_prefix (texts request) (role request) w)
        = Returned processed /\
        encode m processed 32 true = Raised e /\
        exc = {| status_code := 500;
                 detail := "Embedding generation failed: "
                           ++ "Embedding generation failed: " ++ str e |}).
Proof.
  intros hub global w0 w1 request w exc Hstart Hrun.
  destruct (lifespan_startup_returns hub global w0 w1 Hstart)
    as (m & Hhub & ->).
  destruct (texts request) as [|t ts] eqn:Ht.
  - left. unfold embed_texts in Hrun. rewrite Ht in Hrun.
    injection Hrun as <-. split; reflexivity.
  - right.
    assert (Hne : texts request <> []) by (rewrite Ht; discriminate).
    destruct (embed_texts_loaded
                {| model_name := default_model_name; model := Some m |}
                m request w eq_refl Hne)
      as (prefix & _ & Hp & _ & Hout).
    rewrite Hout in Hrun. rewrite Ht in Hrun, Hp.
    destruct (encode m (map (fun text => prefix ++ text) (t :: ts)) 32 true)
      as [rows|e] eqn:Henc; [discriminate|].
    injection Hrun as <-.
    exists m, (map (fun text => prefix ++ text) (t :: ts)), e.
    repeat split; try assumption; try discriminate. apply Hp.
Qed.

Lemma embed_texts_after_startup_witness :
  (texts DemoStartup.query_request = [] /\
   {| status_code := 500;
      detail := "Embedding generation failed: Embedding "
                ++ "generation failed: CUDA out of memory" |}
   = {| status_code := 400; detail := "texts list cannot be empty" |}) \/
  (exists m processed e,
      DemoStartup.failing_model_hub default_model_name = Returned m /\
      texts DemoStartup.query_request <> [] /\
      fst (_apply_role_prefix (texts DemoStartup.query_request)
             (role DemoStartup.query_request) empty_world)
      = Returned processed /\
      encode m processed 32 true = Raised e /\
      {| status_code := 500;
         detail := "Embedding generation failed: Embedding "
                   ++ "generation failed: CUDA out of memory" |}
      = {| status_code := 500;
           detail := "Embedding generation failed: "
                     ++ "Embedding generation failed: " ++ str e |}).
Proof.
  apply (embed_texts_after_startup DemoStartup.failing_model_hub
           (Some Demo.loaded_failing) empty_world
           (snd (lifespan_startup DemoStartup.failing_model_hub
                   empty_world))
           DemoStartup.query_request empty_world).
  - vm_compute. reflexivity.
  - vm_compute. reflexivity.
Defined.

(** X10. An unrecognised role goes through the whole request path.  For a
    non-empty list of texts and a role string other than ["passage"] and
    ["query"], validation accepts the request as given (the role is not
    checked), and the handler answers exactly as it does for the same
    texts with no role: the same response or the same error. *)
Theorem unrecognized_role_accepted :
  forall (embedding_model : option EmbeddingModel) (texts0 : list string)
         (r : string) (w : World),
    r <> "passage" -> r <> "query" -> texts0 <> [] ->
    EmbedRequest_validate texts0 (Some r)
    = Returned {| texts := texts0; role := Some r |} /\
    fst (embed_texts embedding_model
           {| texts := texts0; role := Some r |} w)
    = fst (embed_texts embedding_model
             {| texts := texts0; role := None |} w).
Proof.
  intros embedding_model texts0 r w Hp Hq Hne. split.
  - unfold EmbedRequest_validate, texts_min_items.
    destruct texts0 as [|t ts]; [contradiction | reflexivity].
  - destruct embedding_model as [em|].
    + destruct (model em) as [m|] eqn:Hm.
      * destruct (embed_texts_loaded em m
                    {| texts := texts0; role := Some r |} w Hm Hne)
          as (p1 & _ & Hp1 & _ & Hout1).
        destruct (embed_texts_loaded em m
                    {| texts := texts0; role := None |} w Hm Hne)
          as (p2 & _ & Hp2 & _ & Hout2).
        cbn [texts role] in *.
        destruct (apply_role_prefix_unrecognized texts0 r w Hp Hq)
          as (Hu & _).
        assert (E1 : map (fun text => p1 ++ text) texts0 = texts0)
          by (specialize (Hp1 w); congruence).
        assert (E2 : map (fun text => p2 ++ text) texts0 = texts0)
          by (specialize (Hp2 w); cbn in Hp2; congruence).
        rewrite Hout1, Hout2, E1, E2. reflexivity.
      * assert (Hnot : forall em', Some em = Some em' ->
                                   is_ready em' = false).
        { intros em' Hem. injection Hem as <-. unfold is_ready.
          now rewrite Hm. }
        destruct (embed_texts_not_ready (Some em)
                    {| texts := texts0; role := Some r |} w Hne Hnot)
          as (_ & ->).
        destruct (embed_texts_not_ready (Some em)
                    {| texts := texts0; role := None |} w Hne Hnot)
          as (_ & ->).
        reflexivity.
    + destruct (embed_texts_not_ready None
                  {| texts := texts0; role := Some r |} w Hne)
        as (_ & ->); [discriminate|].
      destruct (embed_texts_not_ready None
                  {| texts := texts0; role := None |} w Hne)
        as (_ & ->); [discriminate|].
      reflexivity.
Qed.

Lemma unrecognized_role_accepted_witness :
  EmbedRequest_validate ["Hello world"] (Some "Passage")
  = Returned {| texts := ["Hello world"]; role := Some "Passage" |} /\
  fst (embed_texts (Some Demo.loaded)
         {| texts := ["Hello world"]; role := Some "Passage" |} empty_world)
  = fst (embed_texts (Some Demo.loaded)
           {| texts := ["Hello world"]; role := None |} empty_world).
Proof.
  apply (unrecognized_role_accepted (Some Demo.loaded) ["Hello world"]
           "Passage" empty_world); discriminate.
Defined.

(** ** [generate_single_embedding] on a row-wise model *)

(** X11. On a loaded model that answers row by row, whatever
    [generate_single_embedding] returns is the embedding of the one text
    with the role's prefix in front, computed with the caller's
    [normalize]: the empty-vector fallback is not what comes back (unless
    the model's own embedding of that text is empty). *)
Theorem generate_single_embedding_rowwise :
  forall (em : EmbeddingModel) (m : SentenceTransformer)
         (embed1 : bool -> string -> list float)
         (text : string) (role0 : option string) (normalize : bool)
         (w : World) (vector : list float),
    model em = Some m ->
    encode_rowwise m embed1 ->
    fst (generate_single_embedding em text role0 normalize w)
    = Returned vector ->
    exists prefix,
      (prefix = "" \/ prefix = "passage: " \/ prefix = "query: ") /\
      fst (_apply_role_prefix [text] role0 w) = Returned [prefix ++ text] /\
      vector = embed1 normalize (prefix ++ text).
Proof.
  intros em m embed1 text role0 normalize w vector Hm Hrow Hrun.
  destruct (apply_role_prefix_shape [text] role0 w)
    as (prefix & Hwhich & Hshape).
  exists prefix. split; [exact Hwhich|]. split; [exact Hshape|].
  unfold generate_single_embedding, bind, ret in Hrun.
  destruct (generate_embeddings_loaded em m text [] role0 32 normalize w Hm)
    as (p & w' & Hp & _ & E).
  rewrite E in Hrun.
  assert (p = [prefix ++ text]) as ->
    by (specialize (Hp w); cbn [map] in Hshape; congruence).
  destruct (encode m [prefix ++ text] 32 normalize) as [rows|e] eqn:Henc;
    [|discriminate].
  apply Hrow in Henc. subst rows. cbn in Hrun. congruence.
Qed.

Lemma generate_single_embedding_rowwise_witness :
  exists prefix,
    (prefix = "" \/ prefix = "passage: " \/ prefix = "query: ") /\
    fst (_apply_role_prefix ["Hello"] (Some "query") empty_world)
    = Returned [prefix ++ "Hello"] /\
    [Demo.float_of_nat 12; 0%float]
    = Demo.toy_embed1 false (prefix ++ "Hello").
Proof.
  apply (generate_single_embedding_rowwise Demo.loaded Demo.toy_model
           Demo.toy_embed1 "Hello" (Some "query") false empty_world
           [Demo.float_of_nat 12; 0%float]).
  - reflexivity.
  - intros sentences batch_size normalize rows Henc.
    injection Henc as <-. reflexivity.
  - vm_compute. reflexivity.
Defined.

(** ** More on role prefixing *)

Lemma append_cancel_l :
  forall (p a b : string), p ++ a = p ++ b -> a = b.
Proof.
  induction p as [|c p IH]; intros a b H; simpl in H.
  - exact H.
  - injection H as H. apply IH. exact H.
Qed.

Lemma map_prefix_cancel :
  forall (p : string) (xs ys : list string),
    map (fun text => p ++ text) xs = map (fun text => p ++ text) ys ->
    xs = ys.
Proof.
  intros p. induction xs as [|x xs IH]; intros [|y ys] H;
    try discriminate; [reflexivity|].
  cbn [map] in H. injection H as Hx Hrest.
  apply append_cancel_l in Hx. apply IH in Hrest. congruence.
Qed.

(** X12. Prefixing loses nothing.  Under one and the same role, two lists
    of texts that come out of [_apply_role_prefix] equal were equal to
    begin with: the step never merges, drops or reorders texts. *)
Theorem apply_role_prefix_injective :
  forall (role0 : option string) (texts1 texts2 : list string)
         (w1 w2 : World),
    fst (_apply_role_prefix texts1 role0 w1)
    = fst (_apply_role_prefix texts2 role0 w2) ->
    texts1 = texts2.
Proof.
  intros role0 texts1 texts2 w1 w2 H.
  destruct role0 as [r|].
  - destruct (string_dec r "passage") as [->|Hp].
    { change (Returned (E := Exception)
                (map (fun text => "passage: " ++ text) texts1)
              = Returned (map (fun text => "passage: " ++ text) texts2))
        in H.
      apply (map_prefix_cancel "passage: "). congruence. }
    destruct (string_dec r "query") as [->|Hq].
    { change (Returned (E := Exception)
                (map (fun text => "query: " ++ text) texts1)
              = Returned (map (fun text => "query: " ++ text) texts2))
        in H.
      apply (map_prefix_cancel "query: "). congruence. }
    destruct (apply_role_prefix_unrecognized texts1 r w1 Hp Hq) as (E1 & _).
    destruct (apply_role_prefix_unrecognized texts2 r w2 Hp Hq) as (E2 & _).
    congruence.
  - cbn in H. congruence.
Qed.

Lemma apply_role_prefix_injective_witness :
  ["a"; "b"] = ["a"; "b"].
Proof.
  apply (apply_role_prefix_injective (Some "passage") ["a"; "b"] ["a"; "b"]
           empty_world empty_world).
  reflexivity.
Defined.

(** X13. When the warning is logged.  [_apply_role_prefix] logs exactly
    one WARNING, naming the role, when the role is a non-empty string
    other than ["passage"] and ["query"]; for an unset role, the empty
    string, ["passage"] or ["query"] it leaves the world as it was.  So
    the empty string counts as unset, silently. *)
Theorem apply_role_prefix_warning :
  forall (texts0 : list string) (role0 : option string) (w : World),
    ((exists r,
         role0 = Some r /\ r <> "" /\ r <> "passage" /\ r <> "query" /\
         snd (_apply_role_prefix texts0 role0 w)
         = {| encode_calls := encode_calls w;
              log_records :=
                log_records w ++
                [{| log_name := embedding_model_logger;
                    log_level := WARNING;
                    log_message := "Unknown role '" ++ r
                                   ++ "', ignoring role prefix" |}] |}) \/
     ((role0 = None \/ role0 = Some "" \/ role0 = Some "passage" \/
       role0 = Some "query") /\
      snd (_apply_role_prefix texts0 role0 w) = w)).
Proof.
  intros texts0 role0 w.
  destruct role0 as [r|]; [|right; split; [left|]; reflexivity].
  destruct (string_dec r "") as [->|He].
  { right. split; [right; left|]; reflexivity. }
  destruct (string_dec r "passage") as [->|Hp].
  { right. split; [right; right; left|]; reflexivity. }
  destruct (string_dec r "query") as [->|Hq].
  { right. split; [right; right; right|]; reflexivity. }
  left. exists r. repeat split; try assumption.
  unfold _apply_role_prefix.
  destruct r as [|c r']; [contradiction|].
  cbn [not_opt_str str_in].
  destruct (String.eqb_spec (String c r') "passage") as [E|_];
    [contradiction|].
  destruct (String.eqb_spec (String c r') "query") as [E|_];
    [contradiction|].
  reflexivity.
Qed.
